(** * Pixeldrain backend: the API client (backend/pixeldrain/api_client.go)

    A shallow embedding of the client-side translation layer of the
    pixeldrain backend: the error mapper [apiErrorHandler], the conversions
    from API responses to objects ([pathToObject], [nodeToObject]) and the
    requests built by the remote operations ([put], [update], [rename],
    [delete]).

    Strings are Go strings, that is byte sequences ([string]); [url.Values]
    and [map[string]any] are finite maps with string keys; a slice is a list,
    indexed in place; an interface value that may be nil is an [option]; a
    run-time panic is the [Panic] outcome. The [context.Context] argument of
    the operations only reaches the transport and is left out. *)

From Stdlib Require Import ZArith.
From stdpp Require Import gmap strings list fin_maps.

(** ** Go's [strings] package: the two functions the client calls *)

Module GoStrings.

(** [s[:n]], for [n <= len(s)]. *)
Fixpoint slice_to (n : nat) (s : string) : string :=
  match n, s with
  | S n', String c s' => String c (slice_to n' s')
  | _, _ => EmptyString
  end.

(** [s[n:]], for [n <= len(s)]. *)
Fixpoint slice_from (n : nat) (s : string) : string :=
  match n, s with
  | S n', String _ s' => slice_from n' s'
  | _, _ => s
  end.

(** [func HasPrefix(s, prefix string) bool]:
    [len(s) >= len(prefix) && s[:len(prefix)] == prefix]. *)
Definition HasPrefix (s prefix : string) : bool :=
  (String.length prefix <=? String.length s)%nat
  && String.eqb (slice_to (String.length prefix) s) prefix.

(** [func TrimPrefix(s, prefix string) string]:
    [if HasPrefix(s, prefix) { return s[len(prefix):] }; return s]. *)
Definition TrimPrefix (s prefix : string) : string :=
  if HasPrefix s prefix then slice_from (String.length prefix) s else s.

End GoStrings.

(** ** The error payload *)

(** [type ApiError struct { StatusCode string `json:"value"`;
                             Message string `json:"message"` }] *)
Record ApiError : Type := {
  ApiError_StatusCode : string;
  ApiError_Message : string
}.

(** [func (e ApiError) Error() string { return e.StatusCode }] *)
Definition ApiError_Error (e : ApiError) : string := ApiError_StatusCode e.

(** ** What the client takes from Go's libraries

    The types and functions of [time], [net/url], [io], [encoding/json] and
    of rclone's [fs] package that the client uses are kept abstract: the
    client only passes their values around and calls them. *)

Class GoLib : Type := {
  (** [time.Time], its zero value and [func (t Time) Format(layout string) string] *)
  time_Time : Type;
  time_Time_zero : time_Time;
  time_Time_Format : time_Time → string → string;
  (** [url.PathEscape] *)
  url_PathEscape : string → string;
  (** [io.Reader] (request bodies), [io.ReadCloser] (response bodies) *)
  io_Reader : Type;
  io_ReadCloser : Type;
  (** [fs.OpenOption] *)
  fs_OpenOption : Type;
  (** the failures of [json.Decoder.Decode], with their [Error()] text *)
  JSONError : Type;
  JSONError_Error : JSONError → string;
  (** [json.NewDecoder(body).Decode(&e)] for [e ApiError]: a failure, or the
      decoded payload *)
  json_Decode_ApiError : io_ReadCloser → JSONError + ApiError
}.

(** [time.RFC3339Nano] *)
Definition RFC3339Nano : string := "2006-01-02T15:04:05.999999999Z07:00".

(** The outcome of a call that can panic. *)
Inductive result (A : Type) : Type :=
  | Ok (a : A)
  | Panic.
Arguments Ok {A} a.
Arguments Panic {A}.

Section Model.
Context `{!GoLib}.

(** *** Errors

    The package-level sentinels are compared by identity in Go, hence one
    constructor each; [errApiError e] is an [ApiError] returned as an
    [error]; [wrapError msg err] is what [fmt.Errorf] builds for a [%w]
    verb. *)
Inductive error : Type :=
  | errNotFound              (* errors.New("path_not_found") *)
  | errExists                (* errors.New("node_already_exists") *)
  | errAuthenticationFailed  (* errors.New("authentication_failed") *)
  | fs_ErrorDirectoryNotEmpty
  | fs_ErrorPermissionDenied
  | errApiError (e : ApiError)
  | errJSON (e : JSONError)
  | wrapError (msg : string) (err : error).

(** [errors.Unwrap] *)
Definition errors_Unwrap (err : error) : option error :=
  match err with
  | wrapError _ inner => Some inner
  | _ => None
  end.

(** [fmt.Errorf(prefix + "%w", err)] for an external [err] *)
Definition fmt_Errorf_w (prefix : string) (e : JSONError) : error :=
  wrapError (prefix +:+ JSONError_Error e) (errJSON e).

(** *** The node and path model *)

Record Permissions : Type := {
  Permissions_Create : bool;
  Permissions_Read : bool;
  Permissions_Update : bool;
  Permissions_Delete : bool
}.

Record FilesystemNode : Type := {
  FilesystemNode_Type : string;
  FilesystemNode_Path : string;
  FilesystemNode_Name : string;
  FilesystemNode_Created : time_Time;
  FilesystemNode_Modified : time_Time;
  FilesystemNode_ModeStr : string;
  FilesystemNode_ModeOctal : string;
  (* File params *)
  FilesystemNode_FileSize : Z;
  FilesystemNode_FileType : string;
  FilesystemNode_SHA256Sum : string;
  (* Meta params *)
  FilesystemNode_ID : string;
  FilesystemNode_ReadPassword : string;
  FilesystemNode_WritePassword : string;
  FilesystemNode_Properties : gmap string string
}.

(** The zero value of [FilesystemNode]. *)
Definition FilesystemNode_zero : FilesystemNode := {|
  FilesystemNode_Type := ""; FilesystemNode_Path := "";
  FilesystemNode_Name := ""; FilesystemNode_Created := time_Time_zero;
  FilesystemNode_Modified := time_Time_zero; FilesystemNode_ModeStr := "";
  FilesystemNode_ModeOctal := ""; FilesystemNode_FileSize := 0;
  FilesystemNode_FileType := ""; FilesystemNode_SHA256Sum := "";
  FilesystemNode_ID := ""; FilesystemNode_ReadPassword := "";
  FilesystemNode_WritePassword := ""; FilesystemNode_Properties := ∅
|}.

(** The assignment [node.Path = p]. *)
Definition FilesystemNode_set_Path (p : string) (n : FilesystemNode)
    : FilesystemNode := {|
  FilesystemNode_Type := FilesystemNode_Type n;
  FilesystemNode_Path := p;
  FilesystemNode_Name := FilesystemNode_Name n;
  FilesystemNode_Created := FilesystemNode_Created n;
  FilesystemNode_Modified := FilesystemNode_Modified n;
  FilesystemNode_ModeStr := FilesystemNode_ModeStr n;
  FilesystemNode_ModeOctal := FilesystemNode_ModeOctal n;
  FilesystemNode_FileSize := FilesystemNode_FileSize n;
  FilesystemNode_FileType := FilesystemNode_FileType n;
  FilesystemNode_SHA256Sum := FilesystemNode_SHA256Sum n;
  FilesystemNode_ID := FilesystemNode_ID n;
  FilesystemNode_ReadPassword := FilesystemNode_ReadPassword n;
  FilesystemNode_WritePassword := FilesystemNode_WritePassword n;
  FilesystemNode_Properties := FilesystemNode_Properties n
|}.

Record FilesystemPath : Type := {
  FilesystemPath_Path : list FilesystemNode;
  FilesystemPath_BaseIndex : Z;
  FilesystemPath_Children : list FilesystemNode;
  FilesystemPath_Permissions : Permissions
}.

(** *** Requests and responses of the REST client *)

(** [url.Values], a [map[string][]string]; the nil map reads as the empty
    one. *)
Definition url_Values_Set (key value : string)
    (v : gmap string (list string)) : gmap string (list string) :=
  <[key := [value]]> v.

(** The fields of [rest.Opts] that the client sets; the others keep their
    zero value. *)
Record Opts : Type := {
  Opts_Method : string;
  Opts_Path : string;
  Opts_Body : option io_Reader;
  Opts_Parameters : gmap string (list string);
  Opts_MultipartParams : gmap string (list string);
  Opts_Options : list fs_OpenOption;
  Opts_NoResponse : bool
}.

(** [*http.Response], as far as the client looks at it: the body, which
    may be nil. *)
Record Response : Type := {
  Response_Body : option io_ReadCloser
}.

(** [rest.Client]: what [CallJSON] answers to a request, given the
    requests made before it. The last argument is the value behind the
    [response] pointer, handed back as the call leaves it ([unit] for a
    nil pointer). *)
Record Client : Type := {
  Client_CallJSON :
    ∀ T : Type, list Opts → Opts → T → option Response * T * option error
}.

(** The fields of [Fs] that the client reads. *)
Record Fs : Type := {
  pathPrefix : string;
  srv : Client
}.

(** [type Object struct]: [base] points into [path] for an object made
    from a path response, to a node of its own otherwise; the nil slice
    is the empty list. *)
Record Object : Type := {
  Object_fs : Fs;
  Object_base : FilesystemNode;
  Object_path : list FilesystemNode;
  Object_children : list FilesystemNode
}.

(** The dynamic values of a [map[string]any]. *)
Inductive any : Type :=
  | any_nil
  | any_Time (t : time_Time)
  | any_string (s : string)
  | any_int (n : Z)
  | any_bool (b : bool).

(** *** Effects: the requests sent and the bodies closed *)

Record World : Type := {
  requests : list Opts;
  closed : list io_ReadCloser
}.

Definition M (A : Type) : Type := World → result (A * World).

#[export] Instance M_ret : MRet M := λ A a w, Ok (a, w).
#[export] Instance M_bind : MBind M := λ A B k m w,
  match m w with
  | Ok (a, w') => k a w'
  | Panic => Panic
  end.

Definition panic {A : Type} : M A := λ _, Panic.

(** [f.srv.CallJSON(ctx, &opts, nil, &response)] *)
Definition CallJSON {T : Type} (f : Fs) (opts : Opts) (response : T)
    : M (option Response * T * option error) :=
  λ w, Ok (Client_CallJSON (srv f) T (requests w) opts response,
           {| requests := requests w ++ [opts]; closed := closed w |}).

(** [if resp != nil && resp.Body != nil { resp.Body.Close() }] *)
Definition closeBody (resp : option Response) : M unit :=
  match resp with
  | Some r =>
      match Response_Body r with
      | Some body =>
          λ w, Ok (tt, {| requests := requests w;
                          closed := closed w ++ [body] |})
      | None => mret tt
      end
  | None => mret tt
  end.

(** The type assertion [v.(time.Time)]. *)
Definition assert_Time (v : any) : M time_Time :=
  match v with
  | any_Time t => mret t
  | _ => panic
  end.

(** The index expression [s[i]] on a slice: [None] is the run-time
    "index out of range" panic. *)
Definition slice_index {A : Type} (s : list A) (i : Z) : option A :=
  if (0 <=? i)%Z then s !! Z.to_nat i else None.

(** ** The error mapper *)

(** [func apiErrorHandler(resp *http.Response) (err error)]. Reading a nil
    response or a nil body panics. *)
Definition apiErrorHandler (resp : option Response) : result error :=
  match resp with
  | Some r =>
      match Response_Body r with
      | Some body =>
          match json_Decode_ApiError body with
          | inl err =>
              Ok (fmt_Errorf_w "failed to parse error json: " err)
          | inr e =>
              if String.eqb (ApiError_StatusCode e) "path_not_found" then
                Ok errNotFound
              else if String.eqb (ApiError_StatusCode e) "directory_not_empty" then
                Ok fs_ErrorDirectoryNotEmpty
              else if String.eqb (ApiError_StatusCode e) "node_already_exists" then
                Ok errExists
              else if String.eqb (ApiError_StatusCode e) "authentication_failed" then
                Ok errAuthenticationFailed
              else if String.eqb (ApiError_StatusCode e) "permission_denied" then
                Ok fs_ErrorPermissionDenied
              else
                Ok (errApiError e)
          end
      | None => Panic
      end
  | None => Panic
  end.

(** ** From API responses to objects *)

(** [node.Path = strings.TrimPrefix(node.Path, prefix)] *)
Definition trimNode (prefix : string) (node : FilesystemNode)
    : FilesystemNode :=
  FilesystemNode_set_Path
    (GoStrings.TrimPrefix (FilesystemNode_Path node) prefix) node.

(** [for i := range nodes {
       nodes[i].Path = strings.TrimPrefix(nodes[i].Path, prefix) }]:
    the elements are assigned in place, index by index. *)
Definition trimNodes (prefix : string) (nodes : list FilesystemNode)
    : list FilesystemNode :=
  foldl (λ acc i, alter (trimNode prefix) i acc)
        nodes (seq 0 (length nodes)).

(** [func (f *Fs) pathToObject(fsp FilesystemPath) (o *Object)] *)
Definition pathToObject (f : Fs) (fsp : FilesystemPath) : result Object :=
  let path := trimNodes (pathPrefix f) (FilesystemPath_Path fsp) in
  let children := trimNodes (pathPrefix f) (FilesystemPath_Children fsp) in
  match slice_index path (FilesystemPath_BaseIndex fsp) with
  | Some base =>
      Ok {| Object_fs := f; Object_base := base;
            Object_path := path; Object_children := children |}
  | None => Panic
  end.

(** [func (f *Fs) nodeToObject(node FilesystemNode) (o *Object)] *)
Definition nodeToObject (f : Fs) (node : FilesystemNode) : Object :=
  let node := trimNode (pathPrefix f) node in
  {| Object_fs := f; Object_base := node;
     Object_path := []; Object_children := [] |}.

(** ** The remote operations *)

(** [func (f *Fs) put(ctx, path string, body io.Reader,
                     options []fs.OpenOption) (node FilesystemNode, err error)] *)
Definition put (f : Fs) (path : string) (body : option io_Reader)
    (options : list fs_OpenOption) : M (FilesystemNode * option error) :=
  '(resp, node, err) ← CallJSON f
     {| Opts_Method := "PUT";
        Opts_Path := url_PathEscape path;
        Opts_Body := body;
        Opts_Parameters := {[ "make_parents" := ["true"] ]};
        Opts_MultipartParams := ∅;
        Opts_Options := options;
        Opts_NoResponse := false |}
     FilesystemNode_zero;
  _ ← closeBody resp;
  mret (node, err).

(** [func (f *Fs) update(ctx, path string, fields map[string]any)
                        (node FilesystemNode, err error)] *)
Definition update (f : Fs) (path : string) (fields : gmap string any)
    : M (FilesystemNode * option error) :=
  let params := url_Values_Set "action" "update" ∅ in
  params ←
    match fields !! "created" with
    | Some created =>
        t ← assert_Time created;
        mret (url_Values_Set "created" (time_Time_Format t RFC3339Nano) params)
    | None => mret params
    end;
  params ←
    match fields !! "modified" with
    | Some modified =>
        t ← assert_Time modified;
        mret (url_Values_Set "modified" (time_Time_Format t RFC3339Nano) params)
    | None => mret params
    end;
  '(resp, node, err) ← CallJSON f
     {| Opts_Method := "POST";
        Opts_Path := url_PathEscape path;
        Opts_Body := None;
        Opts_Parameters := ∅;
        Opts_MultipartParams := params;
        Opts_Options := [];
        Opts_NoResponse := false |}
     FilesystemNode_zero;
  _ ← closeBody resp;
  mret (node, err).

(** [func (f *Fs) rename(ctx, from, to string) (err error)] *)
Definition rename (f : Fs) (from to : string) : M (option error) :=
  '(resp, _, err) ← CallJSON f
     {| Opts_Method := "POST";
        Opts_Path := url_PathEscape from;
        Opts_Body := None;
        Opts_Parameters := ∅;
        Opts_MultipartParams :=
          {[ "action" := ["rename"];
             "target" := [pathPrefix f +:+ to] ]};
        Opts_Options := [];
        Opts_NoResponse := true |}
     tt;
  _ ← closeBody resp;
  mret err.

(** [func (f *Fs) delete(ctx, path string, recursive bool) (err error)] *)
Definition delete (f : Fs) (path : string) (recursive : bool)
    : M (option error) :=
  let params : gmap string (list string) :=
    if recursive then {[ "recursive" := ["true"] ]} else ∅ in
  '(resp, _, err) ← CallJSON f
     {| Opts_Method := "DELETE";
        Opts_Path := url_PathEscape path;
        Opts_Body := None;
        Opts_Parameters := params;
        Opts_MultipartParams := ∅;
        Opts_Options := [];
        Opts_NoResponse := true |}
     tt;
  _ ← closeBody resp;
  mret err.
End Model.

(** ** The rest of the client: [nodeToDirectory], [read], [stat], [mkdir] *)

Section ModelRest.
Context `{!GoLib}.

(** [func (api *rest.Client) Call(ctx, opts) (resp *http.Response, err error)]:
    what the client answers to a request, given the requests made before
    it. Unlike [CallJSON] it hands the response over with its body open. *)
Variable Client_Call : Client → list Opts → Opts → option Response * option error.

(** [fs.DirEntry] and [fs.NewDir(remote string, modTime time.Time)] *)
Variable fs_DirEntry : Type.
Variable fs_NewDir : string → time_Time → fs_DirEntry.

(** The zero value of [FilesystemPath]. *)
Definition FilesystemPath_zero : FilesystemPath := {|
  FilesystemPath_Path := [];
  FilesystemPath_BaseIndex := 0;
  FilesystemPath_Children := [];
  FilesystemPath_Permissions :=
    {| Permissions_Create := false; Permissions_Read := false;
       Permissions_Update := false; Permissions_Delete := false |}
|}.

(** The body that a response holds, if there is one. *)
Definition Response_bodies (resp : option Response) : list io_ReadCloser :=
  match resp with
  | Some r =>
      match Response_Body r with
      | Some body => [body]
      | None => []
      end
  | None => []
  end.

(** [func (f *Fs) nodeToDirectory(node FilesystemNode) fs.DirEntry] *)
Definition nodeToDirectory (f : Fs) (node : FilesystemNode) : fs_DirEntry :=
  fs_NewDir (GoStrings.TrimPrefix (FilesystemNode_Path node) (pathPrefix f))
            (FilesystemNode_Modified node).

(** [f.srv.Call(ctx, &opts)] *)
Definition Call (f : Fs) (opts : Opts) : M (option Response * option error) :=
  λ w, Ok (Client_Call (srv f) (requests w) opts,
           {| requests := requests w ++ [opts]; closed := closed w |}).

(** [func (f *Fs) read(ctx, path string, options []fs.OpenOption)
                      (in io.ReadCloser, err error)]. On success the body is
    returned as it is; reading the body of a nil response panics. *)
Definition read (f : Fs) (path : string) (options : list fs_OpenOption)
    : M (option io_ReadCloser * option error) :=
  '(resp, err) ← Call f
     {| Opts_Method := "GET";
        Opts_Path := url_PathEscape path;
        Opts_Body := None;
        Opts_Parameters := ∅;
        Opts_MultipartParams := ∅;
        Opts_Options := options;
        Opts_NoResponse := false |};
  match err with
  | Some e =>
      _ ← closeBody resp;
      mret (None, Some e)
  | None =>
      match resp with
      | Some r => mret (Response_Body r, None)
      | None => panic
      end
  end.

(** [func (f *Fs) stat(ctx, path string) (fsp FilesystemPath, err error)] *)
Definition stat (f : Fs) (path : string) : M (FilesystemPath * option error) :=
  '(resp, fsp, err) ← CallJSON f
     {| Opts_Method := "GET";
        Opts_Path := url_PathEscape path;
        Opts_Body := None;
        Opts_Parameters := {[ "stat" := [""] ]};
        Opts_MultipartParams := ∅;
        Opts_Options := [];
        Opts_NoResponse := false |}
     FilesystemPath_zero;
  _ ← closeBody resp;
  mret (fsp, err).

(** [func (f *Fs) mkdir(ctx, dir string) (err error)] *)
Definition mkdir (f : Fs) (dir : string) : M (option error) :=
  '(resp, _, err) ← CallJSON f
     {| Opts_Method := "POST";
        Opts_Path := url_PathEscape dir;
        Opts_Body := None;
        Opts_Parameters := ∅;
        Opts_MultipartParams := {[ "action" := ["mkdirall"] ]};
        Opts_Options := [];
        Opts_NoResponse := true |}
     tt;
  _ ← closeBody resp;
  mret err.
End ModelRest.

(** ** A concrete library, to run the client on examples *)

Module Sample.

Definition byte_of (n : nat) : Ascii.ascii := Stdlib.Strings.Ascii.ascii_of_nat n.
Definition code_of (c : Ascii.ascii) : nat := Stdlib.Strings.Ascii.nat_of_ascii c.

(** [net/url]: [shouldEscape(c, encodePathSegment)] *)
Definition shouldEscape (c : Ascii.ascii) : bool :=
  let n := code_of c in
  if ((97 <=? n) && (n <=? 122) || (65 <=? n) && (n <=? 90)
      || (48 <=? n) && (n <=? 57))%nat then false
  else if ((n =? 45) || (n =? 95) || (n =? 46) || (n =? 126))%nat then
    false                                   (* - _ . ~ *)
  else if ((n =? 36) || (n =? 38) || (n =? 43) || (n =? 58)
           || (n =? 61) || (n =? 64))%nat then
    false                                   (* $ & + : = @ *)
  else true.

(** ["0123456789ABCDEF"[n]] *)
Definition upperhex (n : nat) : Ascii.ascii :=
  if (n <? 10)%nat then byte_of (48 + n) else byte_of (55 + n).

(** [url.PathEscape]: every byte that must be escaped becomes [%XX]. *)
Fixpoint PathEscape (s : string) : string :=
  match s with
  | EmptyString => EmptyString
  | String c s' =>
      if shouldEscape c then
        String (byte_of 37)
          (String (upperhex (code_of c / 16))
             (String (upperhex (code_of c mod 16)) (PathEscape s')))
      else String c (PathEscape s')
  end.

(** A time in UTC, broken down. *)
Record utc : Type := {
  year : N; month : N; day : N;
  hour : N; minute : N; second : N; nanosecond : N
}.

(** The [k] low decimal digits of [n], most significant first. *)
Fixpoint digits (k : nat) (n : N) : string :=
  match k with
  | O => EmptyString
  | S k' =>
      digits k' (n / 10)
      +:+ String (Stdlib.Strings.Ascii.ascii_of_N (48 + n mod 10)) EmptyString
  end.

(** The fraction of a second as the layout [.999999999] prints it:
    trailing zeros dropped. *)
Fixpoint fraction (k : nat) (n : N) : string :=
  match k with
  | O => EmptyString
  | S k' => if (n mod 10 =? 0)%N then fraction k' (n / 10) else digits k n
  end.

(** [t.Format(time.RFC3339Nano)] for a UTC time; the client asks for no
    other layout. *)
Definition Format (t : utc) (layout : string) : string :=
  digits 4 (year t) +:+ "-" +:+ digits 2 (month t) +:+ "-"
  +:+ digits 2 (day t) +:+ "T" +:+ digits 2 (hour t) +:+ ":"
  +:+ digits 2 (minute t) +:+ ":" +:+ digits 2 (second t)
  +:+ (if (nanosecond t =? 0)%N then ""
       else "." +:+ fraction 9 (nanosecond t))
  +:+ "Z".

(** Bodies are given by what decoding them yields; decoding failures by
    their message. *)
Definition lib : GoLib := {|
  time_Time := utc;
  time_Time_zero := {| year := 1; month := 1; day := 1; hour := 0;
                       minute := 0; second := 0; nanosecond := 0 |}%N;
  time_Time_Format := Format;
  url_PathEscape := PathEscape;
  io_Reader := string;
  io_ReadCloser := string + ApiError;
  fs_OpenOption := string;
  JSONError := string;
  JSONError_Error := λ msg, msg;
  json_Decode_ApiError := λ body, body
|}.

#[local] Existing Instance lib.

(** A server that answers every request with a response, leaves the value
    behind the [response] pointer as it was, and reports no error. *)
Definition client : @Client lib :=
  {| Client_CallJSON := λ T _ _ response,
       (Some {| Response_Body := Some (inl "" : io_ReadCloser) |},
        response, None) |}.

Definition fs (prefix : string) : @Fs lib :=
  {| pathPrefix := prefix; srv := client |}.

Definition world : @World lib := {| requests := []; closed := [] |}.

Definition node (path : string) : @FilesystemNode lib :=
  FilesystemNode_set_Path path FilesystemNode_zero.

Definition perms : Permissions :=
  {| Permissions_Create := true; Permissions_Read := true;
     Permissions_Update := true; Permissions_Delete := true |}.

(** The answer to a stat: the ancestors in [path], the queried node at
    [base], no children. *)
Definition stat_response (path : list string) (base : Z)
    : @FilesystemPath lib :=
  {| FilesystemPath_Path := node <$> path;
     FilesystemPath_BaseIndex := base;
     FilesystemPath_Children := [];
     FilesystemPath_Permissions := perms |}.

(** A failed response with the given error object as its body. *)
Definition error_response (code message : string) : @Response lib :=
  {| Response_Body := Some (inr (Build_ApiError code message) : io_ReadCloser) |}.

(** A failed response whose body does not decode. *)
Definition garbled_response (failure : string) : @Response lib :=
  {| Response_Body := Some (inl failure : io_ReadCloser) |}.

Definition mtime : utc :=
  {| year := 2024; month := 3; day := 9; hour := 1; minute := 2;
     second := 3; nanosecond := 6 |}%N.

(** The fields of an update that sets the modification time only, and
    the request that [update] sends for them on [/a/b.txt]. *)
Definition modified_only : gmap string (@any lib) :=
  {[ "modified" := @any_Time lib mtime ]}.

Definition modified_only_request : @Opts lib :=
  {| Opts_Method := "POST";
     Opts_Path := "%2Fa%2Fb.txt";
     Opts_Body := None;
     Opts_Parameters := ∅;
     Opts_MultipartParams :=
       {[ "action" := ["update"];
          "modified" := ["2024-03-09T01:02:03.000000006Z"] ]};
     Opts_Options := [];
     Opts_NoResponse := false |}.

(** The stat of [/a/b/c.txt] under the prefix [/u/123], and its handle. *)
Definition scenario_response : @FilesystemPath lib :=
  stat_response ["/u/123/a"; "/u/123/a/b"; "/u/123/a/b/c.txt"] 2.

Definition scenario_object : @Object lib :=
  {| Object_fs := fs "/u/123";
     Object_base := node "/a/b/c.txt";
     Object_path := node <$> ["/a"; "/a/b"; "/a/b/c.txt"];
     Object_children := [] |}.

(** A server that answers every request with the error object
    [path_not_found] and the error that belongs to it. *)
Definition not_found_client : @Client lib :=
  {| Client_CallJSON := λ T _ _ response,
       (Some (error_response "path_not_found" "no such file"), response,
        Some errNotFound) |}.

Definition not_found_fs (prefix : string) : @Fs lib :=
  {| pathPrefix := prefix; srv := not_found_client |}.

(** [Call] of a server that hands out the content of every file asked for. *)
Definition call (c : @Client lib) (earlier : list (@Opts lib)) (o : @Opts lib)
    : option (@Response lib) * option (@error lib) :=
  (Some (garbled_response "content"), None).

(** Directory entries are given by their path and modification time. *)
Definition NewDir (remote : string) (modTime : @time_Time lib)
    : string * @time_Time lib :=
  (remote, modTime).

(** The fields of an update that sets the modification time and a mode. *)
Definition modified_and_mode : gmap string (@any lib) :=
  {[ "modified" := @any_Time lib mtime; "mode" := @any_string lib "0644" ]}.

End Sample.

(** * Properties *)

(** ** Prefix stripping *)

Section TrimPrefixFacts.
Import GoStrings.

Lemma append_cons (c : Ascii.ascii) (a b : string) :
  String c a +:+ b = String c (a +:+ b).
Proof. reflexivity. Qed.

Lemma append_nil (b : string) : "" +:+ b = b.
Proof. reflexivity. Qed.

Lemma length_append (p x : string) :
  String.length (p +:+ x) = String.length p + String.length x.
Proof.
  induction p as [|c p IH]; [done |].
  rewrite append_cons. simpl. by rewrite IH.
Qed.

Lemma slice_to_append (p x : string) : slice_to (String.length p) (p +:+ x) = p.
Proof.
  induction p as [|c p IH]; [by destruct x |].
  rewrite append_cons. simpl. by rewrite IH.
Qed.

Lemma slice_from_append (p x : string) :
  slice_from (String.length p) (p +:+ x) = x.
Proof.
  induction p as [|c p IH]; [by destruct x |].
  rewrite append_cons. simpl. apply IH.
Qed.

Lemma slice_to_from (n : nat) (s : string) :
  slice_to n s +:+ slice_from n s = s.
Proof.
  revert s; induction n as [|n IH]; intros [|c s]; simpl; try done.
  by rewrite append_cons, IH.
Qed.

(** [HasPrefix s p] decides that [s] is [p] followed by something. *)
Lemma HasPrefix_true (s p : string) :
  HasPrefix s p = true ↔ ∃ x, s = p +:+ x.
Proof.
  unfold HasPrefix. rewrite andb_true_iff, Nat.leb_le, String.eqb_eq. split.
  - intros [_ Hp]. exists (slice_from (String.length p) s).
    rewrite <- Hp at 1. by rewrite slice_to_from.
  - intros [x ->]. rewrite length_append, slice_to_append. split; [lia | done].
Qed.

Lemma HasPrefix_false (s p : string) :
  HasPrefix s p = false ↔ ∀ x, s ≠ p +:+ x.
Proof.
  rewrite <- not_true_iff_false, HasPrefix_true. split.
  - intros Hno x Hx. apply Hno. by exists x.
  - intros Hno [x Hx]. by apply (Hno x).
Qed.

Lemma TrimPrefix_append (p x : string) : TrimPrefix (p +:+ x) p = x.
Proof.
  unfold TrimPrefix.
  assert (HasPrefix (p +:+ x) p = true) as -> by (apply HasPrefix_true; eauto).
  apply slice_from_append.
Qed.

Lemma TrimPrefix_other (s p : string) :
  (∀ x, s ≠ p +:+ x) → TrimPrefix s p = s.
Proof. intros H. unfold TrimPrefix. by rewrite (proj2 (HasPrefix_false _ _)). Qed.

Lemma append_assoc (a b c : string) : (a +:+ b) +:+ c = a +:+ (b +:+ c).
Proof.
  induction a as [|x a IH]; [done |]. by rewrite !append_cons, IH.
Qed.

Lemma append_inv_l (p x y : string) : p +:+ x = p +:+ y → x = y.
Proof.
  induction p as [|c p IH]; [done |].
  rewrite !append_cons. intros [= H]. auto.
Qed.

(** After one strip, the prefix is still in front exactly when the string
    began with it twice. *)
Lemma HasPrefix_TrimPrefix (s p : string) :
  HasPrefix (TrimPrefix s p) p = HasPrefix s (p +:+ p).
Proof.
  destruct (HasPrefix s p) eqn:Hs.
  - apply HasPrefix_true in Hs as [x ->]. rewrite TrimPrefix_append.
    apply eq_true_iff_eq. rewrite !HasPrefix_true. split.
    + intros [y ->]. exists y. by rewrite append_assoc.
    + intros [y Hy]. exists y. rewrite append_assoc in Hy.
      by apply append_inv_l in Hy.
  - unfold TrimPrefix. rewrite Hs, Hs. symmetry.
    apply HasPrefix_false. intros x ->.
    apply (proj1 (HasPrefix_false _ _) Hs (p +:+ x)), append_assoc.
Qed.

Lemma slice_from_length (n : nat) (s : string) :
  n ≤ String.length s →
  String.length (slice_from n s) = String.length s - n.
Proof.
  revert s; induction n as [|n IH]; intros [|c s]; simpl; try done; try lia.
  intros H. apply IH. lia.
Qed.

(** A second strip changes nothing exactly when the prefix is empty or is
    no longer in front. *)
Lemma TrimPrefix_twice (s p : string) :
  TrimPrefix (TrimPrefix s p) p = TrimPrefix s p
  ↔ p = "" ∨ HasPrefix (TrimPrefix s p) p = false.
Proof.
  set (t := TrimPrefix s p). split.
  - intros Heq. destruct (HasPrefix t p) eqn:Ht; [left | by right].
    unfold TrimPrefix in Heq. rewrite Ht in Heq.
    apply (f_equal String.length) in Heq.
    apply HasPrefix_true in Ht as [x Hx].
    rewrite slice_from_length in Heq by (rewrite Hx, length_append; lia).
    rewrite Hx, length_append in Heq.
    destruct p; [done | simpl in Heq; lia].
  - intros [-> | Ht].
    + unfold TrimPrefix. simpl. by destruct (HasPrefix t "").
    + unfold TrimPrefix. by rewrite Ht.
Qed.
End TrimPrefixFacts.

Section Properties.
Context `{!GoLib}.
Import GoStrings.

(** ** The in-place loop is the element-wise strip *)

Lemma alter_range_lookup {A : Type} (g : A → A) (n a j : nat) (l : list A) :
  foldl (λ acc i, alter g i acc) l (seq a n) !! j
  = if decide (a ≤ j < a + n) then g <$> l !! j else l !! j.
Proof.
  revert a l. induction n as [|n IH]; intros a l; simpl.
  - case_decide; [lia | done].
  - rewrite IH. destruct (decide (a = j)) as [-> | Hne].
    + rewrite list_lookup_alter_eq. repeat case_decide; try lia; done.
    + rewrite list_lookup_alter_ne by done.
      repeat case_decide; try lia; done.
Qed.

Lemma trimNodes_fmap (prefix : string) (nodes : list FilesystemNode) :
  trimNodes prefix nodes = trimNode prefix <$> nodes.
Proof.
  apply list_eq. intros j. unfold trimNodes.
  rewrite alter_range_lookup, list_lookup_fmap.
  case_decide as Hj; [done |].
  rewrite (lookup_ge_None_2 nodes j) by lia. done.
Qed.

Lemma trimNode_Path (prefix : string) (node : FilesystemNode) :
  FilesystemNode_Path (trimNode prefix node)
  = TrimPrefix (FilesystemNode_Path node) prefix.
Proof. reflexivity. Qed.


Lemma slice_index_None {A : Type} (s : list A) (i : Z) :
  slice_index s i = None ↔ ¬ (0 ≤ i < Z.of_nat (length s))%Z.
Proof.
  unfold slice_index. destruct (Z.leb_spec 0 i).
  - rewrite lookup_ge_None. lia.
  - split; [lia | done].
Qed.

Lemma slice_index_fmap {A B : Type} (g : A → B) (s : list A) (i : Z) :
  slice_index (g <$> s) i = g <$> slice_index s i.
Proof.
  unfold slice_index. destruct (0 <=? i)%Z; [apply list_lookup_fmap | done].
Qed.

(** What [pathToObject] returns, when it returns. *)
Lemma pathToObject_Ok (f : Fs) (fsp : FilesystemPath) (o : Object) :
  pathToObject f fsp = Ok o →
  ∃ raw,
    slice_index (FilesystemPath_Path fsp) (FilesystemPath_BaseIndex fsp)
      = Some raw
    ∧ o = {| Object_fs := f;
             Object_base := trimNode (pathPrefix f) raw;
             Object_path :=
               trimNode (pathPrefix f) <$> FilesystemPath_Path fsp;
             Object_children :=
               trimNode (pathPrefix f) <$> FilesystemPath_Children fsp |}.
Proof.
  unfold pathToObject. rewrite !trimNodes_fmap, slice_index_fmap.
  destruct (slice_index _ _) as [raw|]; simpl; [|done].
  intros [= <-]. by exists raw.
Qed.

(** C2, amended. For every [FilesystemPath] response that is converted to
    a handle, the handle's base node is the element of the path sequence
    at index [base_index] with the prefix stripped, and it is the element
    at that index of the handle's own path sequence; every node of the
    handle's path and children sequences is the node of the response at
    the same place with the configured prefix stripped once from its
    path: a node still starts with the prefix afterwards exactly when its
    raw path started with the prefix twice in a row. *)
Theorem pathToObject_strips_once (f : Fs) (fsp : FilesystemPath) (o : Object) :
  pathToObject f fsp = Ok o →
  (∃ raw,
      slice_index (FilesystemPath_Path fsp) (FilesystemPath_BaseIndex fsp)
        = Some raw
      ∧ Object_base o = trimNode (pathPrefix f) raw)
  ∧ slice_index (Object_path o) (FilesystemPath_BaseIndex fsp)
    = Some (Object_base o)
  ∧ Object_path o = trimNode (pathPrefix f) <$> FilesystemPath_Path fsp
  ∧ Object_children o
    = trimNode (pathPrefix f) <$> FilesystemPath_Children fsp
  ∧ ∀ n, n ∈ Object_path o ++ Object_children o →
      ∃ raw, raw ∈ FilesystemPath_Path fsp ++ FilesystemPath_Children fsp
        ∧ n = trimNode (pathPrefix f) raw
        ∧ FilesystemNode_Path n
          = TrimPrefix (FilesystemNode_Path raw) (pathPrefix f)
        ∧ HasPrefix (FilesystemNode_Path n) (pathPrefix f)
          = HasPrefix (FilesystemNode_Path raw)
              (pathPrefix f +:+ pathPrefix f).
Proof.
  intros (raw & Hraw & ->)%pathToObject_Ok. simpl.
  split; [by exists raw |].
  split; [by rewrite slice_index_fmap, Hraw |].
  do 2 (split; [done |]).
  intros n. rewrite <- fmap_app.
  intros (x & -> & Hx)%list_elem_of_fmap.
  exists x. rewrite trimNode_Path. repeat split; try done.
  apply HasPrefix_TrimPrefix.
Qed.

(** C9. [pathToObject] indexes the path sequence at [base_index] without
    a check of its own: it returns a handle exactly when
    [0 <= base_index < len(path)], and panics on every other input, an
    empty path sequence among them. *)
Theorem pathToObject_bounds (f : Fs) (fsp : FilesystemPath) :
  ((0 ≤ FilesystemPath_BaseIndex fsp
      < Z.of_nat (length (FilesystemPath_Path fsp)))%Z
     ↔ ∃ o, pathToObject f fsp = Ok o)
  ∧ (¬ (0 ≤ FilesystemPath_BaseIndex fsp
          < Z.of_nat (length (FilesystemPath_Path fsp)))%Z
     ↔ pathToObject f fsp = Panic)
  ∧ (FilesystemPath_Path fsp = [] → pathToObject f fsp = Panic).
Proof.
  assert (Hpanic :
    pathToObject f fsp = Panic
    ↔ ¬ (0 ≤ FilesystemPath_BaseIndex fsp
           < Z.of_nat (length (FilesystemPath_Path fsp)))%Z).
  { unfold pathToObject. rewrite trimNodes_fmap, slice_index_fmap.
    rewrite <- slice_index_None.
    destruct (slice_index _ _); simpl; split; done. }
  split; [|split].
  - split.
    + intros Hin. destruct (pathToObject f fsp) as [o|]; [by exists o |].
      by destruct (proj1 Hpanic eq_refl).
    + intros [o Ho] .
      destruct (decide (0 ≤ FilesystemPath_BaseIndex fsp
        < Z.of_nat (length (FilesystemPath_Path fsp)))%Z) as [|Hout];
        [done |].
      apply Hpanic in Hout. congruence.
  - by rewrite Hpanic.
  - intros Hnil. apply Hpanic. rewrite Hnil. simpl. lia.
Qed.

(** C3, amended. Stripping [P] from [P+X] yields [X]; stripping [P] from a
    string that does not start with [P] leaves it unchanged; stripping
    removes one leading occurrence only, so a second strip changes
    nothing exactly when [P] is empty or the stripped string no longer
    starts with [P]. [nodeToObject] strips the path of its node this
    way. *)
Theorem TrimPrefix_strips_once (P X s : string) :
  TrimPrefix (P +:+ X) P = X
  ∧ ((∀ Y, s ≠ P +:+ Y) → TrimPrefix s P = s)
  ∧ (TrimPrefix (TrimPrefix s P) P = TrimPrefix s P
     ↔ P = "" ∨ ∀ Y, TrimPrefix s P ≠ P +:+ Y)
  ∧ ∀ (f : Fs) (node : FilesystemNode),
      FilesystemNode_Path (Object_base (nodeToObject f node))
      = TrimPrefix (FilesystemNode_Path node) (pathPrefix f).
Proof.
  split; [apply TrimPrefix_append |].
  split; [apply TrimPrefix_other |].
  split; [|done].
  rewrite TrimPrefix_twice. by rewrite HasPrefix_false.
Qed.

(** ** The error mapper *)

(** The codes that [apiErrorHandler] recognises. *)
Lemma apiErrorHandler_opaque (r : Response) (body : io_ReadCloser)
    (e : ApiError) :
  Response_Body r = Some body →
  json_Decode_ApiError body = inr e →
  ApiError_StatusCode e ∉
    ["path_not_found"; "directory_not_empty"; "node_already_exists";
     "authentication_failed"; "permission_denied"] →
  apiErrorHandler (Some r) = Ok (errApiError e).
Proof.
  intros Hbody Hdec Hcode. unfold apiErrorHandler. rewrite Hbody, Hdec.
  repeat (apply not_elem_of_cons in Hcode as [?%String.eqb_neq Hcode]).
  by repeat match goal with H : String.eqb _ _ = false |- _ =>
    rewrite H; clear H end.
Qed.

(** C1. For every decoded error payload the mapper returns the error of
    its code: [path_not_found], [directory_not_empty],
    [node_already_exists], [authentication_failed] and [permission_denied]
    give the five fixed errors; any other code gives the payload itself
    as the error, with its code and its message as they were decoded. *)
Theorem apiErrorHandler_decoded (r : Response) (body : io_ReadCloser)
    (e : ApiError) :
  Response_Body r = Some body →
  json_Decode_ApiError body = inr e →
  (ApiError_StatusCode e = "path_not_found" →
     apiErrorHandler (Some r) = Ok errNotFound)
  ∧ (ApiError_StatusCode e = "directory_not_empty" →
     apiErrorHandler (Some r) = Ok fs_ErrorDirectoryNotEmpty)
  ∧ (ApiError_StatusCode e = "node_already_exists" →
     apiErrorHandler (Some r) = Ok errExists)
  ∧ (ApiError_StatusCode e = "authentication_failed" →
     apiErrorHandler (Some r) = Ok errAuthenticationFailed)
  ∧ (ApiError_StatusCode e = "permission_denied" →
     apiErrorHandler (Some r) = Ok fs_ErrorPermissionDenied)
  ∧ (ApiError_StatusCode e ∉
       ["path_not_found"; "directory_not_empty"; "node_already_exists";
        "authentication_failed"; "permission_denied"] →
     ∃ e', apiErrorHandler (Some r) = Ok (errApiError e')
           ∧ ApiError_StatusCode e' = ApiError_StatusCode e
           ∧ ApiError_Message e' = ApiError_Message e).
Proof.
  intros Hbody Hdec.
  repeat split;
    try (intros Hcode; unfold apiErrorHandler;
         by rewrite Hbody, Hdec, Hcode).
  intros Hcode. exists e. by rewrite (apiErrorHandler_opaque r body e).
Qed.

(** C7. For every failed response whose body does not decode as the error
    object, the mapper returns the decoding failure wrapped with the
    context ["failed to parse error json: "]: unwrapping it gives the
    decoder's error, and it is none of the five fixed errors nor an
    [ApiError]. *)
Theorem apiErrorHandler_decode_failure (r : Response) (body : io_ReadCloser)
    (je : JSONError) :
  Response_Body r = Some body →
  json_Decode_ApiError body = inl je →
  ∃ err,
    apiErrorHandler (Some r) = Ok err
    ∧ err = wrapError ("failed to parse error json: " +:+ JSONError_Error je)
                      (errJSON je)
    ∧ errors_Unwrap err = Some (errJSON je)
    ∧ (err ∉ [errNotFound; fs_ErrorDirectoryNotEmpty; errExists;
              errAuthenticationFailed; fs_ErrorPermissionDenied])
    ∧ (∀ e, err ≠ errApiError e).
Proof.
  intros Hbody Hdec. eexists. unfold apiErrorHandler.
  rewrite Hbody, Hdec. split; [reflexivity |].
  split; [reflexivity |]. split; [reflexivity |]. split; [|done].
  unfold fmt_Errorf_w. rewrite !not_elem_of_cons. repeat split; try done.
  apply not_elem_of_nil.
Qed.

(** C10. For every payload with an unrecognised code, the error returned
    keeps the code and the message as fields, and its [Error()] text is
    the code alone: whatever the message is, the text is the same. *)
Theorem ApiError_Error_is_code (r : Response) (body : io_ReadCloser)
    (e : ApiError) :
  Response_Body r = Some body →
  json_Decode_ApiError body = inr e →
  ApiError_StatusCode e ∉
    ["path_not_found"; "directory_not_empty"; "node_already_exists";
     "authentication_failed"; "permission_denied"] →
  ∃ e', apiErrorHandler (Some r) = Ok (errApiError e')
        ∧ ApiError_StatusCode e' = ApiError_StatusCode e
        ∧ ApiError_Message e' = ApiError_Message e
        ∧ ApiError_Error e' = ApiError_StatusCode e
        ∧ ∀ message,
            ApiError_Error (Build_ApiError (ApiError_StatusCode e) message)
            = ApiError_Error e'.
Proof.
  intros Hbody Hdec Hcode. exists e.
  by rewrite (apiErrorHandler_opaque r body e).
Qed.

(** ** The remote operations *)

(** A call followed by the release of the body sends exactly the request
    it was given, and returns. *)
Lemma call_then_close {T A : Type} (f : Fs) (opts : Opts) (response : T)
    (k : T → option error → A) (w : World) :
  ∃ v err w',
    (CallJSON f opts response ≫= λ '(resp, v, err),
       closeBody resp ≫= λ _, mret (k v err)) w = Ok (k v err, w')
    ∧ requests w' = requests w ++ [opts].
Proof.
  unfold mbind, M_bind, CallJSON.
  destruct (Client_CallJSON _ _ _ _ _) as [[resp v] err].
  exists v, err. unfold closeBody.
  destruct resp as [[[body|]]|]; simpl; eauto.
Qed.

(** C8. Every [put] sends one request, and that request carries the query
    parameter [make_parents=true], whatever the arguments are. *)
Theorem put_make_parents (f : Fs) (path : string) (body : option io_Reader)
    (options : list fs_OpenOption) (w : World) :
  ∃ node err o w',
    put f path body options w = Ok ((node, err), w')
    ∧ requests w' = requests w ++ [o]
    ∧ Opts_Method o = "PUT"
    ∧ Opts_Path o = url_PathEscape path
    ∧ Opts_Parameters o = {[ "make_parents" := ["true"] ]}
    ∧ Opts_Parameters o !! "make_parents" = Some ["true"].
Proof.
  unfold put.
  match goal with |- context [CallJSON f ?o ?z] =>
    destruct (call_then_close f o z pair w) as (v & err & w' & Hrun & Hreq)
  end.
  exists v, err. eexists _, w'. split; [exact Hrun |].
  split; [exact Hreq |]. by repeat split.
Qed.

(** C5. Every [rename] sends one request whose form parameter [target] is
    the scope prefix followed by [to], and whose path is the escaped
    [from], without the prefix. *)
Theorem rename_target_prefixed (f : Fs) (from to : string) (w : World) :
  ∃ err o w',
    rename f from to w = Ok (err, w')
    ∧ requests w' = requests w ++ [o]
    ∧ Opts_MultipartParams o !! "target" = Some [pathPrefix f +:+ to]
    ∧ Opts_MultipartParams o !! "action" = Some ["rename"]
    ∧ Opts_Path o = url_PathEscape from.
Proof.
  unfold rename.
  match goal with |- context [CallJSON f ?o ?z] =>
    destruct (call_then_close f o z (λ _ err, err) w)
      as (v & err & w' & Hrun & Hreq)
  end.
  exists err. eexists _, w'. split; [exact Hrun |].
  split; [exact Hreq |]. by repeat split.
Qed.

(** C6. Every [delete] sends one request; it carries the query parameter
    [recursive=true] when [recursive] is true, and no query parameter at
    all, so no [recursive] one, when it is false. *)
Theorem delete_recursive_flag (f : Fs) (path : string) (recursive : bool)
    (w : World) :
  ∃ err o w',
    delete f path recursive w = Ok (err, w')
    ∧ requests w' = requests w ++ [o]
    ∧ Opts_Method o = "DELETE"
    ∧ Opts_Parameters o !! "recursive"
      = (if recursive then Some ["true"] else None)
    ∧ (recursive = false → Opts_Parameters o = ∅).
Proof.
  unfold delete.
  match goal with |- context [CallJSON f ?o ?z] =>
    destruct (call_then_close f o z (λ _ err, err) w)
      as (v & err & w' & Hrun & Hreq)
  end.
  exists err. eexists _, w'. split; [exact Hrun |].
  split; [exact Hreq |]. simpl. split; [done |].
  split; [by destruct recursive | by intros ->].
Qed.

(** The form parameters that [update] builds from the fields it is
    given: [None] when a type assertion panics. *)
Lemma update_runs (f : Fs) (path : string) (fields : gmap string any)
    (w : World) :
  match fields !! "created", fields !! "modified" with
  | Some (any_Time c), Some (any_Time m) =>
      ∃ node err o w',
        update f path fields w = Ok ((node, err), w')
        ∧ requests w' = requests w ++ [o]
        ∧ Opts_MultipartParams o
          = <["modified" := [time_Time_Format m RFC3339Nano]]>
              (<["created" := [time_Time_Format c RFC3339Nano]]>
                 {[ "action" := ["update"] ]})
  | Some (any_Time c), None =>
      ∃ node err o w',
        update f path fields w = Ok ((node, err), w')
        ∧ requests w' = requests w ++ [o]
        ∧ Opts_MultipartParams o
          = <["created" := [time_Time_Format c RFC3339Nano]]>
              {[ "action" := ["update"] ]}
  | None, Some (any_Time m) =>
      ∃ node err o w',
        update f path fields w = Ok ((node, err), w')
        ∧ requests w' = requests w ++ [o]
        ∧ Opts_MultipartParams o
          = <["modified" := [time_Time_Format m RFC3339Nano]]>
              {[ "action" := ["update"] ]}
  | None, None =>
      ∃ node err o w',
        update f path fields w = Ok ((node, err), w')
        ∧ requests w' = requests w ++ [o]
        ∧ Opts_MultipartParams o = {[ "action" := ["update"] ]}
  | _, _ => update f path fields w = Panic
  end.
Proof.
  unfold update.
  destruct (fields !! "created") as [[]|], (fields !! "modified") as [[]|];
    try reflexivity.
  all: epose proof (call_then_close _ _ FilesystemNode_zero pair w)
         as (v & err & w' & Hrun & Hreq);
    exists v, err; eexists _, w'; (split; [exact Hrun |]);
    (split; [exact Hreq | reflexivity]).
Qed.

(** C4. [update] panics exactly when a supplied [created] or [modified]
    field is not a time; otherwise it sends one request, whose form
    parameters hold [created] (resp. [modified]) if and only if the caller
    supplied that field, with the time formatted with the layout
    [time.RFC3339Nano] as its value. With only [modified] supplied the
    form parameters are [action] and [modified], and nothing else: no
    [created], not even an empty one. *)
Theorem update_timestamps (f : Fs) (path : string)
    (fields : gmap string any) (w : World) :
  (update f path fields w = Panic
   ↔ ∃ k v, (k = "created" ∨ k = "modified")
            ∧ fields !! k = Some v ∧ ∀ t, v ≠ any_Time t)
  ∧ ∀ r w', update f path fields w = Ok (r, w') →
      ∃ o, requests w' = requests w ++ [o]
        ∧ Opts_MultipartParams o !! "action" = Some ["update"]
        ∧ (∀ k, k = "created" ∨ k = "modified" →
             (is_Some (Opts_MultipartParams o !! k) ↔ is_Some (fields !! k))
             ∧ ∀ v, fields !! k = Some v →
                 ∃ t, v = any_Time t
                      ∧ Opts_MultipartParams o !! k
                        = Some [time_Time_Format t RFC3339Nano])
        ∧ (∀ t, fields !! "created" = None →
             fields !! "modified" = Some (any_Time t) →
             Opts_MultipartParams o
             = {[ "action" := ["update"];
                  "modified" := [time_Time_Format t RFC3339Nano] ]}).
Proof.
  pose proof (update_runs f path fields w) as Hrun.
  destruct (fields !! "created") as [vc|] eqn:Hc;
    destruct (fields !! "modified") as [vm|] eqn:Hm.
  all: try destruct vc as [|c| | |]; try destruct vm as [|m| | |].
  all: try destruct Hrun as (node & err & o & w0 & Hu & Hreq & Hparams).
  (* the calls that panic *)
  all: try (split;
    [ split; [intros _ | done];
      first
        [ by (exists "created"; eexists; split; [by left |];
              split; [exact Hc | done])
        | by (exists "modified"; eexists; split; [by right |];
              split; [exact Hm | done]) ]
    | intros r w'; by rewrite Hrun ]).
  (* the calls that send a request *)
  all: split;
    [ split; [by rewrite Hu |];
      intros (k & v & [-> | ->] & Hk & Hv); rewrite Hk in *;
      simplify_eq; exfalso; by eapply Hv
    | intros r w'; rewrite Hu; intros [= <- <-]; exists o;
      split; [exact Hreq |]; rewrite Hparams; split; [done |]; split;
      [ intros k [-> | ->]; rewrite ?Hc, ?Hm;
        (split; [split; intros [? Hx]; by (done || eauto) |]);
        intros v Hv; simplify_eq; eauto
      | intros t ? Ht; simplify_eq;
        rewrite <- !insert_empty; by apply insert_insert_ne ] ].
Qed.
End Properties.

(** ** The client on concrete inputs *)

Section Examples.
Import GoStrings.
#[local] Existing Instance Sample.lib.

(** Prefix [/u/123], raw path [/u/123/a/b/c.txt]: the handle of a stat on
    [/a/b/c.txt] has the base path [/a/b/c.txt]. *)
Example stat_scenario :
  pathToObject (Sample.fs "/u/123")
    (Sample.stat_response
       ["/u/123/a"; "/u/123/a/b"; "/u/123/a/b/c.txt"] 2)
  = Ok {| Object_fs := Sample.fs "/u/123";
          Object_base := Sample.node "/a/b/c.txt";
          Object_path := Sample.node <$> ["/a"; "/a/b"; "/a/b/c.txt"];
          Object_children := [] |}.
Proof. reflexivity. Qed.

(** A rename from [/a/old] to [/a/new] under the prefix [/u/123]. *)
Example rename_scenario :
  rename (Sample.fs "/u/123") "/a/old" "/a/new" Sample.world
  = Ok (None,
        {| requests :=
             [ {| Opts_Method := "POST";
                  Opts_Path := "%2Fa%2Fold";
                  Opts_Body := None;
                  Opts_Parameters := ∅;
                  Opts_MultipartParams :=
                    {[ "action" := ["rename"];
                       "target" := ["/u/123/a/new"] ]};
                  Opts_Options := [];
                  Opts_NoResponse := true |} ];
           closed := [inl ""] |}).
Proof. reflexivity. Qed.

Example put_scenario :
  ∃ w', put (Sample.fs "/u/123") "/a/new.txt" (Some "content") []
          Sample.world
        = Ok ((FilesystemNode_zero, None), w')
        ∧ Opts_Parameters <$> requests w'
          = [ {[ "make_parents" := ["true"] ]} ].
Proof. eexists. split; reflexivity. Qed.

Example delete_scenario :
  ∃ w1 w2,
    delete (Sample.fs "/u/123") "/a" false Sample.world = Ok (None, w1)
    ∧ delete (Sample.fs "/u/123") "/a" true w1 = Ok (None, w2)
    ∧ Opts_Parameters <$> requests w2 = [ ∅; {[ "recursive" := ["true"] ]} ].
Proof. do 2 eexists. repeat split; reflexivity. Qed.

(** *** C3 *)

(** C3 as stated fails: under the prefix [/me], stripping [/me/me/notes.txt]
    once gives [/me/notes.txt], and stripping that again gives
    [/notes.txt]. *)
Lemma TrimPrefix_not_idempotent :
  TrimPrefix "/me/me/notes.txt" "/me" = "/me/notes.txt"
  ∧ TrimPrefix (TrimPrefix "/me/me/notes.txt" "/me") "/me" = "/notes.txt"
  ∧ TrimPrefix (TrimPrefix "/me/me/notes.txt" "/me") "/me"
    ≠ TrimPrefix "/me/me/notes.txt" "/me".
Proof. repeat split. discriminate. Qed.

Lemma TrimPrefix_strips_once_witness :
  TrimPrefix "/u/123/a/b/c.txt" "/u/123" = "/a/b/c.txt"
  ∧ TrimPrefix "/shared/x" "/u/123" = "/shared/x"
  ∧ TrimPrefix (TrimPrefix "/u/123/a" "/u/123") "/u/123"
    = TrimPrefix "/u/123/a" "/u/123".
Proof.
  destruct (TrimPrefix_strips_once "/u/123" "/a/b/c.txt" "/shared/x")
    as (Happ & Hother & _).
  destruct (TrimPrefix_strips_once "/u/123" "" "/u/123/a")
    as (_ & _ & Htwice & _).
  split; [exact Happ |]. split.
  - apply Hother. apply HasPrefix_false. reflexivity.
  - apply Htwice. right. apply HasPrefix_false. reflexivity.
Defined.

(** *** C2 *)

(** C2 as stated fails: under the prefix [/me], the node [/me/me/notes.txt]
    becomes [/me/notes.txt], which still starts with the prefix. *)
Lemma pathToObject_prefix_remains :
  ∃ o n,
    pathToObject (Sample.fs "/me")
      (Sample.stat_response ["/me/me"; "/me/me/notes.txt"] 1) = Ok o
    ∧ n ∈ Object_path o ++ Object_children o
    ∧ FilesystemNode_Path n = "/me/notes.txt"
    ∧ HasPrefix (FilesystemNode_Path n) (pathPrefix (Sample.fs "/me")) = true.
Proof.
  eexists _, (Sample.node "/me/notes.txt").
  split; [reflexivity |]. split; [|by split].
  simpl. apply list_elem_of_In. simpl. auto.
Qed.

Lemma pathToObject_strips_once_witness :
  let o := {| Object_fs := Sample.fs "/u/123";
              Object_base := Sample.node "/a/b/c.txt";
              Object_path := Sample.node <$> ["/a"; "/a/b"; "/a/b/c.txt"];
              Object_children := [] |} in
  pathToObject (Sample.fs "/u/123")
    (Sample.stat_response ["/u/123/a"; "/u/123/a/b"; "/u/123/a/b/c.txt"] 2)
  = Ok o
  ∧ slice_index (Object_path o) 2 = Some (Object_base o)
  ∧ Object_path o
    = trimNode "/u/123"
      <$> (Sample.node <$> ["/u/123/a"; "/u/123/a/b"; "/u/123/a/b/c.txt"]).
Proof.
  intros o.
  assert (Hrun : pathToObject (Sample.fs "/u/123")
    (Sample.stat_response ["/u/123/a"; "/u/123/a/b"; "/u/123/a/b/c.txt"] 2)
    = Ok o) by reflexivity.
  destruct (pathToObject_strips_once _ _ _ Hrun) as (_ & Hbase & Hpath & _).
  split; [exact Hrun |]. split; [exact Hbase | exact Hpath].
Defined.

(** *** C9 *)

Lemma pathToObject_bounds_witness :
  pathToObject (Sample.fs "/u/123") (Sample.stat_response [] 0) = Panic
  ∧ pathToObject (Sample.fs "/u/123") (Sample.stat_response ["/u/123/a"] 1)
    = Panic
  ∧ pathToObject (Sample.fs "/u/123")
      (Sample.stat_response ["/u/123/a"] (-1)) = Panic
  ∧ ∃ o, pathToObject (Sample.fs "/u/123")
           (Sample.stat_response ["/u/123/a"] 0) = Ok o.
Proof.
  split; [|split; [|split]].
  - apply (proj2 (proj2 (pathToObject_bounds _ _))). reflexivity.
  - apply (proj1 (proj1 (proj2 (pathToObject_bounds _ _)))). simpl. lia.
  - apply (proj1 (proj1 (proj2 (pathToObject_bounds _ _)))). simpl. lia.
  - apply (proj1 (proj1 (pathToObject_bounds _ _))). simpl. lia.
Defined.

(** *** C1, C7, C10 *)

Lemma apiErrorHandler_decoded_witness :
  apiErrorHandler (Some (Sample.error_response "path_not_found" "no such file"))
  = Ok errNotFound
  ∧ ∃ e', apiErrorHandler
            (Some (Sample.error_response "quota_exceeded" "disk is full"))
          = Ok (errApiError e')
          ∧ ApiError_StatusCode e' = "quota_exceeded"
          ∧ ApiError_Message e' = "disk is full".
Proof.
  split.
  - exact (proj1 (apiErrorHandler_decoded
             (Sample.error_response "path_not_found" "no such file")
             _ _ eq_refl eq_refl) eq_refl).
  - apply (apiErrorHandler_decoded
             (Sample.error_response "quota_exceeded" "disk is full")
             _ _ eq_refl eq_refl).
    rewrite !not_elem_of_cons. repeat split; try discriminate.
    apply not_elem_of_nil.
Defined.

Lemma apiErrorHandler_decode_failure_witness :
  ∃ err, apiErrorHandler (Some (Sample.garbled_response "unexpected EOF"))
         = Ok err
         ∧ err = wrapError "failed to parse error json: unexpected EOF"
                   (errJSON "unexpected EOF").
Proof.
  destruct (apiErrorHandler_decode_failure
              (Sample.garbled_response "unexpected EOF") _ _
              eq_refl eq_refl) as (err & Hrun & Herr & _).
  exists err. split; [exact Hrun | exact Herr].
Defined.

Lemma ApiError_Error_is_code_witness :
  ∃ e', apiErrorHandler
          (Some (Sample.error_response "quota_exceeded" "disk is full"))
        = Ok (errApiError e')
        ∧ ApiError_Message e' = "disk is full"
        ∧ ApiError_Error e' = "quota_exceeded".
Proof.
  destruct (ApiError_Error_is_code
              (Sample.error_response "quota_exceeded" "disk is full")
              _ _ eq_refl eq_refl) as (e' & Hrun & _ & Hmsg & Htext & _).
  - rewrite !not_elem_of_cons. repeat split; try discriminate.
    apply not_elem_of_nil.
  - exists e'. split; [exact Hrun |]. split; [exact Hmsg | exact Htext].
Defined.

(** *** C4 *)

Lemma update_timestamps_witness :
  let w' := {| requests := [Sample.modified_only_request];
               closed := [inl ""] |} in
  update (Sample.fs "/u/123") "/a/b.txt" Sample.modified_only Sample.world
  = Ok ((FilesystemNode_zero, None), w')
  ∧ ∃ o, requests w' = requests Sample.world ++ [o]
         ∧ Opts_MultipartParams o !! "created" = None
         ∧ Opts_MultipartParams o !! "modified"
           = Some ["2024-03-09T01:02:03.000000006Z"].
Proof.
  intros w'.
  assert (Hrun :
    update (Sample.fs "/u/123") "/a/b.txt" Sample.modified_only Sample.world
    = Ok ((FilesystemNode_zero, None), w')) by reflexivity.
  split; [exact Hrun |].
  destruct (update_timestamps (Sample.fs "/u/123") "/a/b.txt"
              Sample.modified_only Sample.world) as [_ Hsent].
  destruct (Hsent _ _ Hrun) as (o & Hreq & _ & Hfields & _).
  exists o. split; [exact Hreq |].
  destruct (Hfields "created" (or_introl eq_refl)) as [Hc _].
  destruct (Hfields "modified" (or_intror eq_refl)) as [_ Hm].
  destruct (Hm _ eq_refl) as (t & [= <-] & Hmod).
  split; [|exact Hmod].
  destruct (Opts_MultipartParams o !! "created") eqn:Hlook; [|done].
  by destruct (proj1 Hc (ex_intro _ _ eq_refl)).
Defined.
End Examples.

(** * Further properties of the client *)

Section ConversionProperties.
Context `{!GoLib}.
Import GoStrings.

Variable fs_DirEntry : Type.
Variable fs_NewDir : string → time_Time → fs_DirEntry.

Lemma TrimPrefix_empty (s : string) : TrimPrefix s "" = s.
Proof. by destruct s. Qed.

Lemma TrimPrefix_restore (s p : string) :
  HasPrefix s p = true → p +:+ TrimPrefix s p = s.
Proof. intros [x ->]%HasPrefix_true. by rewrite TrimPrefix_append. Qed.

Lemma TrimPrefix_keep (s p : string) :
  HasPrefix s p = false → TrimPrefix s p = s.
Proof. intros Hs. unfold TrimPrefix. by rewrite Hs. Qed.

(** A strip leaves a string as it is exactly when the prefix is empty or
    is not in front. *)
Lemma TrimPrefix_fixed (s p : string) :
  TrimPrefix s p = s ↔ p = "" ∨ HasPrefix s p = false.
Proof.
  split.
  - intros Heq. destruct (HasPrefix s p) eqn:Hs; [left | by right].
    apply TrimPrefix_restore in Hs. rewrite Heq in Hs.
    apply (f_equal String.length) in Hs. rewrite length_append in Hs.
    destruct p; [done | simpl in Hs; lia].
  - intros [-> | Hs]; [apply TrimPrefix_empty | by apply TrimPrefix_keep].
Qed.

(** Putting the raw path back into a stripped node gives the raw node. *)
Lemma trimNode_restore (prefix : string) (raw : FilesystemNode) :
  FilesystemNode_set_Path (FilesystemNode_Path raw) (trimNode prefix raw) = raw.
Proof. by destruct raw. Qed.

Lemma trimNode_fixed (prefix : string) (n : FilesystemNode) :
  trimNode prefix n = n
  ↔ prefix = "" ∨ HasPrefix (FilesystemNode_Path n) prefix = false.
Proof.
  rewrite <- TrimPrefix_fixed. split.
  - intros Heq. rewrite <- Heq at 2. apply trimNode_Path.
  - intros Heq. unfold trimNode. rewrite Heq. by destruct n.
Qed.

Lemma fmap_fixed {A : Type} (g : A → A) (l : list A) :
  g <$> l = l ↔ Forall (λ x, g x = x) l.
Proof.
  induction l as [|x l IH].
  - split; [constructor | done].
  - rewrite fmap_cons, Forall_cons, <- IH. split.
    + by intros [= ? ?].
    + by intros [-> ->].
Qed.

(** X1. The conversion of a path response touches the [Path] field only:
    the handle's sequences have the lengths of the response's, and putting
    the raw path back into the node at any index gives the node of the
    response at that index, with every other field as it was. *)
Theorem pathToObject_keeps_fields (f : Fs) (fsp : FilesystemPath) (o : Object) :
  pathToObject f fsp = Ok o →
  Object_fs o = f
  ∧ Forall2 (λ raw n, FilesystemNode_set_Path (FilesystemNode_Path raw) n = raw)
      (FilesystemPath_Path fsp) (Object_path o)
  ∧ Forall2 (λ raw n, FilesystemNode_set_Path (FilesystemNode_Path raw) n = raw)
      (FilesystemPath_Children fsp) (Object_children o)
  ∧ length (Object_path o) = length (FilesystemPath_Path fsp)
  ∧ length (Object_children o) = length (FilesystemPath_Children fsp).
Proof.
  intros (raw & Hraw & ->)%pathToObject_Ok. simpl.
  rewrite !length_fmap. repeat split.
  all: apply Forall2_fmap_r, Forall_Forall2_diag, Forall_forall.
  all: intros x _; apply trimNode_restore.
Qed.

(** X2. With an empty prefix the conversions change nothing: the handle of
    a path response holds the response's own sequences and its node at
    [base_index], and the handle and the directory entry of a single node
    hold that node's own path. *)
Theorem empty_prefix_identity (f : Fs) (fsp : FilesystemPath)
    (node : FilesystemNode) :
  pathPrefix f = "" →
  Object_base (nodeToObject f node) = node
  ∧ nodeToDirectory fs_DirEntry fs_NewDir f node
    = fs_NewDir (FilesystemNode_Path node) (FilesystemNode_Modified node)
  ∧ ∀ o, pathToObject f fsp = Ok o →
      Object_path o = FilesystemPath_Path fsp
      ∧ Object_children o = FilesystemPath_Children fsp
      ∧ slice_index (FilesystemPath_Path fsp) (FilesystemPath_BaseIndex fsp)
        = Some (Object_base o).
Proof.
  intros Hp.
  assert (Hid : ∀ n, trimNode (pathPrefix f) n = n)
    by (intros n; apply trimNode_fixed; by left).
  split; [apply Hid |].
  split; [unfold nodeToDirectory; by rewrite Hp, TrimPrefix_empty |].
  intros o (raw & Hraw & ->)%pathToObject_Ok. simpl.
  rewrite Hid, Hraw. repeat split; apply fmap_fixed, Forall_forall; auto.
Qed.

(** X3. The raw path can be rebuilt from the handle: for the node at every
    index of the path and children sequences, the prefix followed by the
    handle's path is the raw path when the raw path started with the
    prefix, and the handle's path is the raw path when it did not. *)
Theorem pathToObject_round_trip (f : Fs) (fsp : FilesystemPath) (o : Object) :
  pathToObject f fsp = Ok o →
  let rebuilt raw n :=
    FilesystemNode_Path raw
    = if HasPrefix (FilesystemNode_Path raw) (pathPrefix f)
      then pathPrefix f +:+ FilesystemNode_Path n
      else FilesystemNode_Path n in
  Forall2 rebuilt (FilesystemPath_Path fsp) (Object_path o)
  ∧ Forall2 rebuilt (FilesystemPath_Children fsp) (Object_children o).
Proof.
  intros (raw & Hraw & ->)%pathToObject_Ok rebuilt. simpl.
  assert (Hone : ∀ x, rebuilt x (trimNode (pathPrefix f) x)).
  { intros x. unfold rebuilt. rewrite trimNode_Path.
    destruct (HasPrefix _ _) eqn:Hx.
    - by rewrite TrimPrefix_restore.
    - by rewrite TrimPrefix_keep. }
  split; apply Forall2_fmap_r, Forall_Forall2_diag, Forall_forall; auto.
Qed.

(** X4. A path response is converted node by node as a single listing
    entry is: the handle's base is the base of [nodeToObject] on the raw
    node at [base_index], and its path and children sequences hold the
    bases of [nodeToObject] on the raw nodes; [nodeToObject] itself gives a
    handle without path and children. *)
Theorem pathToObject_nodeToObject (f : Fs) (fsp : FilesystemPath) (o : Object) :
  pathToObject f fsp = Ok o →
  (∃ raw,
      slice_index (FilesystemPath_Path fsp) (FilesystemPath_BaseIndex fsp)
        = Some raw
      ∧ Object_base o = Object_base (nodeToObject f raw)
      ∧ Object_path (nodeToObject f raw) = []
      ∧ Object_children (nodeToObject f raw) = [])
  ∧ Object_path o
    = (λ raw, Object_base (nodeToObject f raw)) <$> FilesystemPath_Path fsp
  ∧ Object_children o
    = (λ raw, Object_base (nodeToObject f raw)) <$> FilesystemPath_Children fsp.
Proof.
  intros (raw & Hraw & ->)%pathToObject_Ok. simpl.
  split; [by exists raw | done].
Qed.

End ConversionProperties.

Section ErrorMapperProperties.
Context `{!GoLib}.

(** The error that belongs to a code, when the payload decodes. *)
Lemma apiErrorHandler_cases (r : Response) (body : io_ReadCloser)
    (e : ApiError) :
  Response_Body r = Some body →
  json_Decode_ApiError body = inr e →
  (ApiError_StatusCode e = "path_not_found"
   ∧ apiErrorHandler (Some r) = Ok errNotFound)
  ∨ (ApiError_StatusCode e = "directory_not_empty"
     ∧ apiErrorHandler (Some r) = Ok fs_ErrorDirectoryNotEmpty)
  ∨ (ApiError_StatusCode e = "node_already_exists"
     ∧ apiErrorHandler (Some r) = Ok errExists)
  ∨ (ApiError_StatusCode e = "authentication_failed"
     ∧ apiErrorHandler (Some r) = Ok errAuthenticationFailed)
  ∨ (ApiError_StatusCode e = "permission_denied"
     ∧ apiErrorHandler (Some r) = Ok fs_ErrorPermissionDenied)
  ∨ ((ApiError_StatusCode e ∉
        ["path_not_found"; "directory_not_empty"; "node_already_exists";
         "authentication_failed"; "permission_denied"])
     ∧ apiErrorHandler (Some r) = Ok (errApiError e)).
Proof.
  intros Hbody Hdec. unfold apiErrorHandler. rewrite Hbody, Hdec.
  repeat match goal with
  | |- context [String.eqb ?a ?b] =>
      destruct (String.eqb_spec a b) as [Heq | ?];
      [rewrite Heq; simpl; tauto |]
  end.
  do 5 right. split; [|done].
  rewrite !not_elem_of_cons. repeat split; try done. apply not_elem_of_nil.
Qed.

(** X6. [apiErrorHandler] panics exactly when the response, or its body, is
    nil; on every response with a body it returns an error, whatever the
    body holds. *)
Theorem apiErrorHandler_panics (resp : option Response) :
  (apiErrorHandler resp = Panic
   ↔ resp = None ∨ ∃ r, resp = Some r ∧ Response_Body r = None)
  ∧ (∀ r body, resp = Some r → Response_Body r = Some body →
       ∃ err, apiErrorHandler resp = Ok err).
Proof.
  split.
  - destruct resp as [r|]; [|by split; [left | ]].
    destruct (Response_Body r) as [body|] eqn:Hbody.
    + split.
      * unfold apiErrorHandler. rewrite Hbody.
        destruct (json_Decode_ApiError body); [done |].
        by repeat destruct (String.eqb _ _).
      * intros [? | (r' & [= <-] & Hnone)]; congruence.
    + split; [intros _; right; by exists r |].
      intros _. unfold apiErrorHandler. by rewrite Hbody.
  - intros r body -> Hbody. unfold apiErrorHandler. rewrite Hbody.
    destruct (json_Decode_ApiError body); [by eexists |].
    repeat destruct (String.eqb _ _); by eexists.
Qed.

(** X7. No two codes share an error: when two decoded payloads are mapped
    to the same error their codes are equal, and when the code is not one
    of the five recognised ones their messages are equal as well. *)
Theorem apiErrorHandler_separates_codes (r1 r2 : Response)
    (b1 b2 : io_ReadCloser) (e1 e2 : ApiError) :
  Response_Body r1 = Some b1 → json_Decode_ApiError b1 = inr e1 →
  Response_Body r2 = Some b2 → json_Decode_ApiError b2 = inr e2 →
  apiErrorHandler (Some r1) = apiErrorHandler (Some r2) →
  ApiError_StatusCode e1 = ApiError_StatusCode e2
  ∧ ((ApiError_StatusCode e1 ∉
        ["path_not_found"; "directory_not_empty"; "node_already_exists";
         "authentication_failed"; "permission_denied"]) → e1 = e2).
Proof.
  intros Hb1 Hd1 Hb2 Hd2 Heq.
  destruct (apiErrorHandler_cases r1 b1 e1 Hb1 Hd1)
    as [[H1 R1]|[[H1 R1]|[[H1 R1]|[[H1 R1]|[[H1 R1]|[H1 R1]]]]]];
  destruct (apiErrorHandler_cases r2 b2 e2 Hb2 Hd2)
    as [[H2 R2]|[[H2 R2]|[[H2 R2]|[[H2 R2]|[[H2 R2]|[H2 R2]]]]]];
  rewrite R1, R2 in Heq; try discriminate Heq.
  all: try (split; [congruence |]; intros Hno; exfalso; apply Hno;
            rewrite H1; apply list_elem_of_In; simpl; tauto).
  injection Heq as ->. done.
Qed.

(** X8. For the five recognised codes the message of the payload is
    dropped: two payloads with the same recognised code give the same
    error, whatever their messages, and that error is not an [ApiError]. *)
Theorem apiErrorHandler_drops_message (r1 r2 : Response)
    (b1 b2 : io_ReadCloser) (e1 e2 : ApiError) :
  Response_Body r1 = Some b1 → json_Decode_ApiError b1 = inr e1 →
  Response_Body r2 = Some b2 → json_Decode_ApiError b2 = inr e2 →
  ApiError_StatusCode e1 = ApiError_StatusCode e2 →
  ApiError_StatusCode e1 ∈
    ["path_not_found"; "directory_not_empty"; "node_already_exists";
     "authentication_failed"; "permission_denied"] →
  apiErrorHandler (Some r1) = apiErrorHandler (Some r2)
  ∧ ∀ e, apiErrorHandler (Some r1) ≠ Ok (errApiError e).
Proof.
  intros Hb1 Hd1 Hb2 Hd2 Hcode Hin.
  unfold apiErrorHandler. rewrite Hb1, Hd1, Hb2, Hd2, <- Hcode.
  repeat (apply elem_of_cons in Hin as [-> | Hin]; [by split |]).
  by apply elem_of_nil in Hin.
Qed.
End ErrorMapperProperties.

Section OperationProperties.
Context `{!GoLib}.

(** What a call followed by the release of the body leaves behind. *)
Lemma call_then_close_run {T A : Type} (f : Fs) (opts : Opts) (response : T)
    (k : T → option error → A) (w : World) :
  (CallJSON f opts response ≫= λ '(resp, v, err),
     closeBody resp ≫= λ _, mret (k v err)) w
  = let '(resp, v, err) :=
      Client_CallJSON (srv f) T (requests w) opts response in
    Ok (k v err,
        {| requests := requests w ++ [opts];
           closed := closed w ++ Response_bodies resp |}).
Proof.
  unfold mbind, M_bind, CallJSON.
  destruct (Client_CallJSON _ _ _ _ _) as [[resp v] err].
  unfold closeBody. destruct resp as [[[body|]]|]; simpl; by rewrite ?app_nil_r.
Qed.

(** X9. [update] looks at the fields [created] and [modified] only: two
    field maps that agree on these two keys give the same call, so any
    other field a caller supplies is silently left out of the request. *)
Theorem update_ignores_other_fields (f : Fs) (path : string)
    (fields fields' : gmap string any) (w : World) :
  fields !! "created" = fields' !! "created" →
  fields !! "modified" = fields' !! "modified" →
  update f path fields w = update f path fields' w.
Proof. intros Hc Hm. unfold update. by rewrite Hc, Hm. Qed.

(** X10. The form of a request sent by [update] has the key [action], with
    the value [update], and of the keys of the field map exactly those
    among [created] and [modified]; the request has no query parameter and
    no body. With an empty field map the form is [action=update] alone. *)
Theorem update_form_keys (f : Fs) (path : string) (fields : gmap string any)
    (w : World) (r : FilesystemNode * option error) (w' : World) :
  update f path fields w = Ok (r, w') →
  ∃ o, requests w' = requests w ++ [o]
    ∧ Opts_Method o = "POST"
    ∧ Opts_Path o = url_PathEscape path
    ∧ Opts_Parameters o = ∅
    ∧ Opts_Body o = None
    ∧ Opts_MultipartParams o !! "action" = Some ["update"]
    ∧ dom (Opts_MultipartParams o)
      = {["action"]} ∪ (dom fields ∩ {["created"; "modified"]})
    ∧ (fields = ∅ → Opts_MultipartParams o = {[ "action" := ["update"] ]}).
Proof.
  intros Hrun. unfold update in Hrun.
  assert (Hdom : ∀ k, k ∈ dom fields ↔ is_Some (fields !! k))
    by (intros k; apply elem_of_dom).
  pose proof (Hdom "created") as Hc. pose proof (Hdom "modified") as Hm.
  assert (Hempty : fields = ∅ → fields !! "created" = None
                                ∧ fields !! "modified" = None)
    by (intros ->; by rewrite !lookup_empty).
  destruct (fields !! "created") as [[|c| | |]|];
    destruct (fields !! "modified") as [[|m| | |]|]; try discriminate Hrun.
  all: cbv [mbind M_bind mret M_ret assert_Time CallJSON closeBody] in Hrun.
  all: destruct (Client_CallJSON _ _ _ _ _) as [[resp v] err].
  all: destruct resp as [[[body|]]|]; injection Hrun as <- <-.
  all: eexists; (split; [reflexivity |]).
  all: simpl; repeat (split; [done |]).
  all: unfold url_Values_Set; rewrite ?dom_insert_L, dom_empty_L.
  all: split; [| intros [??]%Hempty; by (done || discriminate)].
  all: clear Hdom Hempty; rewrite is_Some_alt in Hc, Hm; simpl in Hc, Hm.
  all: apply set_eq; intros k.
  all: rewrite !elem_of_union, elem_of_intersection, !elem_of_union,
         !elem_of_singleton, elem_of_empty.
  all: intuition (subst; tauto).
Qed.

(** X13. The operations that decode their answer release the response
    body and pass the error on: when the client answers with the response
    [resp] and the error [err], each of [put], [stat], [mkdir], [rename] and
    [delete] returns [err] as it is and has closed the body of [resp], if
    there is one, once, whether [err] is nil or not; so does [update]
    whenever it sends its request. *)
Theorem operations_release_body (f : Fs) (w : World)
    (resp : option Response) (err : option error) :
  (∀ (T : Type) (o : Opts) (z : T),
     ∃ v, Client_CallJSON (srv f) T (requests w) o z = (resp, v, err)) →
  (∀ path body options, ∃ node w',
     put f path body options w = Ok ((node, err), w')
     ∧ closed w' = closed w ++ Response_bodies resp)
  ∧ (∀ path, ∃ fsp w',
       stat f path w = Ok ((fsp, err), w')
       ∧ closed w' = closed w ++ Response_bodies resp)
  ∧ (∀ dir, ∃ w',
       mkdir f dir w = Ok (err, w')
       ∧ closed w' = closed w ++ Response_bodies resp)
  ∧ (∀ from to, ∃ w',
       rename f from to w = Ok (err, w')
       ∧ closed w' = closed w ++ Response_bodies resp)
  ∧ (∀ path recursive, ∃ w',
       delete f path recursive w = Ok (err, w')
       ∧ closed w' = closed w ++ Response_bodies resp)
  ∧ (∀ path fields r w',
       update f path fields w = Ok (r, w') →
       r.2 = err ∧ closed w' = closed w ++ Response_bodies resp).
Proof.
  intros Hsrv.
  assert (Hrun : ∀ (T A : Type) (o : Opts) (z : T) (k : T → option error → A),
    ∃ v w',
      (CallJSON f o z ≫= λ '(resp, v, err),
         closeBody resp ≫= λ _, mret (k v err)) w = Ok (k v err, w')
      ∧ closed w' = closed w ++ Response_bodies resp).
  { intros T A o z k. rewrite call_then_close_run.
    destruct (Hsrv T o z) as [v ->]. by eexists _, _. }
  split; [|split; [|split; [|split; [|split]]]].
  - intros path body options. apply (Hrun _ _ _ _ pair).
  - intros path. apply (Hrun _ _ _ _ pair).
  - intros dir. unfold mkdir.
    match goal with |- context [CallJSON f ?o ?z] =>
      destruct (Hrun unit _ o z (λ _ e, e)) as (_ & w' & Hw)
    end.
    exists w'. exact Hw.
  - intros from to. unfold rename.
    match goal with |- context [CallJSON f ?o ?z] =>
      destruct (Hrun unit _ o z (λ _ e, e)) as (_ & w' & Hw)
    end.
    exists w'. exact Hw.
  - intros path recursive. unfold delete.
    match goal with |- context [CallJSON f ?o ?z] =>
      destruct (Hrun unit _ o z (λ _ e, e)) as (_ & w' & Hw)
    end.
    exists w'. exact Hw.
  - intros path fields r w' Hupd. unfold update in Hupd.
    destruct (fields !! "created") as [[|c| | |]|];
      destruct (fields !! "modified") as [[|m| | |]|]; try discriminate Hupd.
    all: epose proof (Hrun _ _ _ FilesystemNode_zero pair)
           as (v & w0 & Hw & Hclosed);
      pose proof (eq_trans (eq_sym Hupd) Hw) as [= -> ->]; by split.
Qed.

(** X14. [stat] sends one [GET] on the escaped path whose only query
    parameter is [stat], present with the empty string as its value, and
    returns the path response and the error of the client as they are. *)
Theorem stat_request (f : Fs) (path : string) (w : World) :
  ∃ o,
    Opts_Method o = "GET"
    ∧ Opts_Path o = url_PathEscape path
    ∧ Opts_Parameters o = {[ "stat" := [""] ]}
    ∧ Opts_Parameters o !! "stat" = Some [""]
    ∧ Opts_MultipartParams o = ∅
    ∧ Opts_Body o = None
    ∧ let '(resp, fsp, err) :=
        Client_CallJSON (srv f) FilesystemPath (requests w) o
          FilesystemPath_zero in
      stat f path w
      = Ok ((fsp, err),
            {| requests := requests w ++ [o];
               closed := closed w ++ Response_bodies resp |}).
Proof.
  unfold stat.
  match goal with |- context [CallJSON f ?o ?z] => exists o end.
  repeat (split; [done |]).
  destruct (Client_CallJSON _ _ _ _ _) as [[resp fsp] err] eqn:Hanswer.
  etransitivity; [apply (call_then_close_run f _ _ pair w) |].
  by rewrite Hanswer.
Qed.

(** X15. [mkdir] sends one [POST] on the escaped path whose form is
    [action=mkdirall] and nothing else, without query parameters, and
    expects no response body; a second [mkdir] of the same directory sends
    the same request again. *)
Theorem mkdir_request (f : Fs) (dir : string) (w : World) :
  ∃ o err1 err2 w1 w2,
    Opts_Method o = "POST"
    ∧ Opts_Path o = url_PathEscape dir
    ∧ Opts_MultipartParams o = {[ "action" := ["mkdirall"] ]}
    ∧ Opts_Parameters o = ∅
    ∧ Opts_NoResponse o = true
    ∧ mkdir f dir w = Ok (err1, w1)
    ∧ requests w1 = requests w ++ [o]
    ∧ mkdir f dir w1 = Ok (err2, w2)
    ∧ requests w2 = requests w ++ [o; o].
Proof.
  unfold mkdir.
  match goal with |- context [CallJSON f ?o ?z] =>
    destruct (call_then_close f o z (λ _ err, err) w)
      as (v1 & err1 & w1 & Hrun1 & Hreq1);
    destruct (call_then_close f o z (λ _ err, err) w1)
      as (v2 & err2 & w2 & Hrun2 & Hreq2);
    exists o, err1, err2, w1, w2
  end.
  repeat split; try done.
  by rewrite Hreq2, Hreq1, <- app_assoc.
Qed.

End OperationProperties.

Section PrefixAndReadProperties.
Context `{!GoLib}.
Import GoStrings.

Variable Client_Call : Client → list Opts → Opts → option Response * option error.
Variable fs_DirEntry : Type.
Variable fs_NewDir : string → time_Time → fs_DirEntry.

(** X11. The target of a rename comes back as the destination: a node that
    the server reports at the [target] path sent by [rename f from to] is
    given the path [to] by [nodeToObject] and by [nodeToDirectory] of the
    same [f]. *)
Theorem rename_round_trip (f : Fs) (from to : string) (w : World) :
  ∃ err o w' target,
    rename f from to w = Ok (err, w')
    ∧ requests w' = requests w ++ [o]
    ∧ Opts_MultipartParams o !! "target" = Some [target]
    ∧ ∀ node, FilesystemNode_Path node = target →
        FilesystemNode_Path (Object_base (nodeToObject f node)) = to
        ∧ nodeToDirectory fs_DirEntry fs_NewDir f node
          = fs_NewDir to (FilesystemNode_Modified node).
Proof.
  unfold rename.
  match goal with |- context [CallJSON f ?o ?z] =>
    destruct (call_then_close f o z (λ _ err, err) w)
      as (v & err & w' & Hrun & Hreq)
  end.
  exists err. eexists _, w', (pathPrefix f +:+ to).
  split; [exact Hrun |]. split; [exact Hreq |]. split; [done |].
  intros node Hnode. unfold nodeToDirectory. simpl.
  by rewrite Hnode, TrimPrefix_append.
Qed.

(** X12. Apart from the target of [rename], no operation reads the path
    prefix: two [Fs] with the same client make the same calls for [put],
    [read], [stat], [update], [mkdir] and [delete], so the request path is
    the escaped argument alone, and prefixing is left to the caller. *)
Theorem prefix_unused (f f' : Fs) :
  srv f = srv f' →
  (∀ path body options w, put f path body options w = put f' path body options w)
  ∧ (∀ path options w,
       read Client_Call f path options w = read Client_Call f' path options w)
  ∧ (∀ path w, stat f path w = stat f' path w)
  ∧ (∀ path fields w, update f path fields w = update f' path fields w)
  ∧ (∀ dir w, mkdir f dir w = mkdir f' dir w)
  ∧ (∀ path recursive w, delete f path recursive w = delete f' path recursive w).
Proof.
  destruct f as [p c], f' as [p' c']. simpl. intros <-. by repeat split.
Qed.

(** X16. [read] sends one [GET] on the escaped path, with the options it
    was given and no parameters. When the client reports an error, [read]
    closes the body of the response, if there is one, and returns the error
    with a nil stream; when it reports none, [read] returns the body of the
    response unclosed; with neither an error nor a response it panics. *)
Theorem read_outcomes (f : Fs) (path : string) (options : list fs_OpenOption)
    (w : World) :
  ∃ o,
    Opts_Method o = "GET"
    ∧ Opts_Path o = url_PathEscape path
    ∧ Opts_Options o = options
    ∧ Opts_Parameters o = ∅
    ∧ Opts_MultipartParams o = ∅
    ∧ match Client_Call (srv f) (requests w) o with
      | (resp, Some e) =>
          read Client_Call f path options w
          = Ok ((None, Some e),
                {| requests := requests w ++ [o];
                   closed := closed w ++ Response_bodies resp |})
      | (Some r, None) =>
          read Client_Call f path options w
          = Ok ((Response_Body r, None),
                {| requests := requests w ++ [o]; closed := closed w |})
      | (None, None) => read Client_Call f path options w = Panic
      end.
Proof.
  unfold read.
  match goal with |- context [Call _ f ?o] => exists o end.
  repeat (split; [done |]).
  unfold mbind, M_bind, Call.
  destruct (Client_Call _ _ _) as [[[[body|]]|] [e|]]; simpl;
    by rewrite ?app_nil_r.
Qed.
End PrefixAndReadProperties.

(** ** The further properties on concrete inputs *)

Section MoreExamples.
Import GoStrings.
#[local] Existing Instance Sample.lib.

Lemma pathToObject_keeps_fields_witness :
  length (Object_path Sample.scenario_object) = 3
  ∧ Object_fs Sample.scenario_object = Sample.fs "/u/123".
Proof.
  destruct (pathToObject_keeps_fields (Sample.fs "/u/123")
              Sample.scenario_response Sample.scenario_object eq_refl)
    as (Hfs & _ & _ & Hlen & _).
  split; [exact Hlen | exact Hfs].
Defined.

Lemma empty_prefix_identity_witness :
  Object_base (nodeToObject (Sample.fs "") (Sample.node "/a/b")) = Sample.node "/a/b"
  ∧ nodeToDirectory _ Sample.NewDir (Sample.fs "") (Sample.node "/a/b")
    = ("/a/b", time_Time_zero).
Proof.
  destruct (empty_prefix_identity _ Sample.NewDir (Sample.fs "")
              Sample.scenario_response (Sample.node "/a/b") eq_refl)
    as (Hobj & Hdir & _).
  split; [exact Hobj | exact Hdir].
Defined.

Lemma pathToObject_round_trip_witness :
  Forall2
    (λ raw n,
       FilesystemNode_Path raw
       = if HasPrefix (FilesystemNode_Path raw) "/u/123"
         then "/u/123" +:+ FilesystemNode_Path n
         else FilesystemNode_Path n)
    (FilesystemPath_Path Sample.scenario_response)
    (Object_path Sample.scenario_object).
Proof.
  exact (proj1 (pathToObject_round_trip (Sample.fs "/u/123")
                  Sample.scenario_response Sample.scenario_object eq_refl)).
Defined.

Lemma pathToObject_nodeToObject_witness :
  Object_base Sample.scenario_object
  = Object_base (nodeToObject (Sample.fs "/u/123")
                   (Sample.node "/u/123/a/b/c.txt")).
Proof.
  destruct (pathToObject_nodeToObject (Sample.fs "/u/123")
              Sample.scenario_response Sample.scenario_object eq_refl)
    as ((raw & Hraw & Hbase & _) & _).
  injection Hraw as <-. exact Hbase.
Defined.


Lemma apiErrorHandler_panics_witness :
  apiErrorHandler (Some {| Response_Body := None |}) = Panic
  ∧ ∃ err, apiErrorHandler (Some (Sample.garbled_response "EOF")) = Ok err.
Proof.
  split.
  - apply (proj1 (apiErrorHandler_panics _)). right. by eexists.
  - exact (proj2 (apiErrorHandler_panics
                    (Some (Sample.garbled_response "EOF")))
             (Sample.garbled_response "EOF") (inl "EOF") eq_refl eq_refl).
Defined.

Lemma apiErrorHandler_separates_codes_witness :
  "quota_exceeded" = "quota_exceeded"
  ∧ Build_ApiError "quota_exceeded" "disk is full"
    = Build_ApiError "quota_exceeded" "disk is full".
Proof.
  destruct (apiErrorHandler_separates_codes
              (Sample.error_response "quota_exceeded" "disk is full")
              (Sample.error_response "quota_exceeded" "disk is full")
              _ _ _ _ eq_refl eq_refl eq_refl eq_refl eq_refl)
    as [Hcode Hpayload].
  split; [exact Hcode |]. apply Hpayload.
  rewrite !not_elem_of_cons. repeat split; try discriminate.
  apply not_elem_of_nil.
Defined.

Lemma apiErrorHandler_drops_message_witness :
  apiErrorHandler (Some (Sample.error_response "permission_denied" "read only"))
  = apiErrorHandler (Some (Sample.error_response "permission_denied" "locked")).
Proof.
  refine (proj1 (apiErrorHandler_drops_message
                   (Sample.error_response "permission_denied" "read only")
                   (Sample.error_response "permission_denied" "locked")
                   _ _ _ _ eq_refl eq_refl eq_refl eq_refl eq_refl _)).
  apply list_elem_of_In. simpl. tauto.
Defined.

Lemma update_ignores_other_fields_witness :
  update (Sample.fs "/u/123") "/a/b.txt" Sample.modified_and_mode Sample.world
  = update (Sample.fs "/u/123") "/a/b.txt" Sample.modified_only Sample.world.
Proof.
  exact (update_ignores_other_fields (Sample.fs "/u/123") "/a/b.txt"
           Sample.modified_and_mode Sample.modified_only Sample.world
           eq_refl eq_refl).
Defined.

Lemma update_form_keys_witness :
  ∃ o, dom (Opts_MultipartParams o)
       = {["action"]} ∪ (dom Sample.modified_and_mode ∩ {["created"; "modified"]})
       ∧ Opts_Parameters o = ∅.
Proof.
  destruct (update_form_keys (Sample.fs "/u/123") "/a/b.txt"
              Sample.modified_and_mode Sample.world
              (FilesystemNode_zero, None)
              {| requests := [Sample.modified_only_request];
                 closed := [inl ""] |} eq_refl)
    as (o & _ & _ & _ & Hquery & _ & _ & Hdom & _).
  exists o. split; [exact Hdom | exact Hquery].
Defined.

Lemma prefix_unused_witness :
  put (Sample.fs "/u/123") "/a" None [] Sample.world
  = put (Sample.fs "/u/456") "/a" None [] Sample.world
  ∧ read Sample.call (Sample.fs "/u/123") "/a" [] Sample.world
    = read Sample.call (Sample.fs "/u/456") "/a" [] Sample.world.
Proof.
  destruct (prefix_unused Sample.call (Sample.fs "/u/123") (Sample.fs "/u/456")
              eq_refl) as (Hput & Hread & _).
  split; [apply Hput | apply Hread].
Defined.

Lemma operations_release_body_witness :
  ∃ w', delete (Sample.not_found_fs "/u/123") "/a" false Sample.world
        = Ok (Some errNotFound, w')
        ∧ closed w' = [inr (Build_ApiError "path_not_found" "no such file")].
Proof.
  destruct (operations_release_body (Sample.not_found_fs "/u/123")
              Sample.world
              (Some (Sample.error_response "path_not_found" "no such file"))
              (Some errNotFound))
    as (_ & _ & _ & _ & Hdelete & _).
  - intros T o z. by exists z.
  - exact (Hdelete "/a" false).
Defined.
End MoreExamples.
